(** * Sonar: the Slack mention handler of [main.py]

    A shallow embedding of [handle_app_mention] (main.py, lines 109-134),
    the only function the script defines.  The handler receives the [say]
    callback and the event [body] from Slack Bolt, reads
    [body['event']['text']] and [body['event']['user']], and answers
    through [say]; every [Exception] raised in its [try] block is caught
    and answered with an apology that quotes the exception.

    The development has four parts: the Python values the handler can
    observe (JSON data, with Python's [str] and [repr] of them), the
    exceptions and the effect monad, the handler itself, and the
    properties proved about it. *)

From Stdlib Require Import String Ascii List ZArith Bool Lia DecimalString.
Import ListNotations.

#[local] Open Scope list_scope.
#[local] Open Scope string_scope.
#[local] Set Warnings "-register-all".

(* ------------------------------------------------------------------ *)
(** * Python values *)
(* ------------------------------------------------------------------ *)

Module Py.

(** The event body is what [json.loads] produces: [None], booleans,
    numbers, strings, lists and string-keyed dictionaries.  A dictionary
    keeps its insertion order (it shows in [str]), hence the association
    list; lookup takes the first binding of a key.  A float is kept as its
    [repr], which is all the handler can observe of it.  A string is a
    sequence of 8-bit characters, read as the code points below 256. *)
Inductive PyVal : Type :=
| PNone
| PBool (b : bool)
| PInt (z : Z)
| PFloat (repr : string)
| PStr (s : string)
| PList (items : list PyVal)
| PDict (entries : list (string * PyVal)).

(** [type(v).__name__], as it appears in the interpreter's messages. *)
Definition type_name (v : PyVal) : string :=
  match v with
  | PNone => "NoneType"
  | PBool _ => "bool"
  | PInt _ => "int"
  | PFloat _ => "float"
  | PStr _ => "str"
  | PList _ => "list"
  | PDict _ => "dict"
  end.

(** ** Characters *)

Definition squote : ascii := "039"%char.
Definition dquote : ascii := "034"%char.
Definition backslash : ascii := "092"%char.
Definition tab : ascii := "009"%char.
Definition newline : ascii := "010"%char.
Definition cr : ascii := "013"%char.
Definition space : ascii := "032"%char.

Definition nl : string := String newline EmptyString.

Fixpoint has_char (c : ascii) (s : string) : bool :=
  match s with
  | EmptyString => false
  | String a rest => Ascii.eqb a c || has_char c rest
  end.

(** ** [repr] of a string

    CPython's [unicode_repr]: single quotes unless the string holds a
    single quote and no double quote; the quote and the backslash are
    escaped with a backslash; tab, newline and carriage return get their
    letter; the other characters that are not printable are written
    [\xNN].  Below 256 the characters that are not printable are the
    C0 and C1 controls, DEL, the no-break space and the soft hyphen. *)

Definition hex_digit (n : nat) : ascii :=
  nth n (list_ascii_of_string "0123456789abcdef") "0"%char.

Definition hex_escape (c : ascii) : string :=
  let n := nat_of_ascii c in
  String backslash (String "x" (String (hex_digit (n / 16))
                                  (String (hex_digit (n mod 16)) EmptyString))).

Definition is_printable (c : ascii) : bool :=
  let n := nat_of_ascii c in
  if (n <? 32)%nat then false
  else if (n <? 127)%nat then true
  else if (n <=? 160)%nat then false
  else negb (n =? 173)%nat.

Definition repr_quote (s : string) : ascii :=
  if has_char squote s && negb (has_char dquote s) then dquote else squote.

Definition repr_char (quote c : ascii) : string :=
  if Ascii.eqb c quote || Ascii.eqb c backslash then String backslash (String c EmptyString)
  else if Ascii.eqb c tab then String backslash "t"
  else if Ascii.eqb c newline then String backslash "n"
  else if Ascii.eqb c cr then String backslash "r"
  else if is_printable c then String c EmptyString
  else hex_escape c.

Fixpoint repr_body (quote : ascii) (s : string) : string :=
  match s with
  | EmptyString => EmptyString
  | String c rest => repr_char quote c ++ repr_body quote rest
  end.

Definition str_repr (s : string) : string :=
  let q := repr_quote s in
  String q (repr_body q s ++ String q EmptyString).

(** ** [repr] and [str] of a value *)

Definition int_str (z : Z) : string := NilZero.string_of_int (Z.to_int z).

Fixpoint join (sep : string) (parts : list string) : string :=
  match parts with
  | [] => EmptyString
  | [p] => p
  | p :: rest => p ++ sep ++ join sep rest
  end.

Fixpoint py_repr (v : PyVal) : string :=
  match v with
  | PNone => "None"
  | PBool true => "True"
  | PBool false => "False"
  | PInt z => int_str z
  | PFloat r => r
  | PStr s => str_repr s
  | PList items => "[" ++ join ", " (map py_repr items) ++ "]"
  | PDict entries =>
      "{" ++ join ", " (map (fun '(k, x) => str_repr k ++ ": " ++ py_repr x) entries) ++ "}"
  end.

(** [str(v)], which is also what an f-string field [{v}] renders: the
    string itself for a [str], [repr] for the other types. *)
Definition py_str (v : PyVal) : string :=
  match v with
  | PStr s => s
  | _ => py_repr v
  end.

(** ** [str.split(sep, maxsplit)] for a one-character separator *)

(** The text before and after the first [sep], when there is one. *)
Fixpoint cut (sep : ascii) (s : string) : option (string * string) :=
  match s with
  | EmptyString => None
  | String c rest =>
      if Ascii.eqb c sep then Some (EmptyString, rest)
      else match cut sep rest with
           | Some (before, after) => Some (String c before, after)
           | None => None
           end
  end.

Fixpoint split (sep : ascii) (maxsplit : nat) (s : string) : list string :=
  match maxsplit with
  | O => [s]
  | S m =>
      match cut sep s with
      | Some (before, after) => before :: split sep m after
      | None => [s]
      end
  end.

End Py.

(* ------------------------------------------------------------------ *)
(** * Exceptions and effects *)
(* ------------------------------------------------------------------ *)

Module Eff.
Import Py.

(** The classes of the exceptions the handler can meet.  Its own
    expressions raise the first four; [say] may raise anything, either a
    subclass of [Exception] or one of [BaseException] alone
    ([KeyboardInterrupt], [SystemExit]), which [except Exception] lets
    through. *)
Inductive ExcClass : Type :=
| KeyError
| IndexError
| TypeError
| AttributeError
| OtherException (name : string)
| BaseExceptionOnly (name : string).

(** An exception: its class and [str(e)], the text an f-string field
    [{e}] renders. *)
Record PyExc : Type := mkExc { exc_class : ExcClass; exc_str : string }.

Definition is_Exception (e : PyExc) : bool :=
  match exc_class e with
  | BaseExceptionOnly _ => false
  | _ => true
  end.

Inductive Result (A : Type) : Type :=
| Ok (a : A)
| Raise (e : PyExc).
Arguments Ok {A} a.
Arguments Raise {A} e.

(** What the script can do to the outside world.  [ESay] records a call
    of the [say] callback with its text and the exception it raised, if
    any; [ELog] a record handed to [logger].  The last three are the
    effects of the agent wiring of lines 64-101: a completion of [llm],
    an [invoke] of [sql_agent] and a statement run by the toolkit. *)
Inductive LogLevel : Type := INFO | ERROR.

Inductive Effect : Type :=
| ESay (text : string) (raised : option PyExc)
| ELog (level : LogLevel) (text : string)
| ELlmCall (prompt : string)
| EAgentInvoke (input : string)
| ESqlExecute (sql : string).

Definition Trace : Type := list Effect.

(** A computation threads the trace of effects, oldest first, and ends
    with a value or a raised exception. *)
Definition M (A : Type) : Type := Trace -> Result A * Trace.

Definition ret {A} (a : A) : M A := fun tr => (Ok a, tr).

Definition bind {A B} (m : M A) (k : A -> M B) : M B :=
  fun tr =>
    match m tr with
    | (Ok a, tr') => k a tr'
    | (Raise e, tr') => (Raise e, tr')
    end.

Definition lift {A} (r : Result A) : M A := fun tr => (r, tr).

Definition emit (ev : Effect) : M unit := fun tr => (Ok tt, (tr ++ [ev])%list).

(** [try: body / except Exception as e: handler e]. *)
Definition try_except_Exception {A} (body : M A) (handler : PyExc -> M A) : M A :=
  fun tr =>
    match body tr with
    | (Ok a, tr') => (Ok a, tr')
    | (Raise e, tr') => if is_Exception e then handler e tr' else (Raise e, tr')
    end.

Definition run {A} (m : M A) : Result A * Trace := m [].

(** ** The [say] callback and the logger *)

(** The behaviour of the callback the handler is given: whether its
    [n]-th call (counting from 0) with a given text returns or raises. *)
Definition SayBehaviour : Type := nat -> string -> option PyExc.

Definition say_never_raises (say : SayBehaviour) : Prop :=
  forall n text, say n text = None.

Definition is_say (ev : Effect) : bool :=
  match ev with ESay _ _ => true | _ => false end.

Definition say_count (tr : Trace) : nat := length (filter is_say tr).

Definition call_say (say : SayBehaviour) (text : string) : M unit :=
  fun tr =>
    match say (say_count tr) text with
    | None => (Ok tt, (tr ++ [ESay text None])%list)
    | Some e => (Raise e, (tr ++ [ESay text (Some e)])%list)
    end.

Definition logger_info (text : string) : M unit := emit (ELog INFO text).
Definition logger_error (text : string) : M unit := emit (ELog ERROR text).

(** ** Reading a trace *)

(** The texts handed to [say], in order. *)
Fixpoint messages (tr : Trace) : list string :=
  match tr with
  | [] => []
  | ESay text _ :: rest => text :: messages rest
  | _ :: rest => messages rest
  end.

(** The texts for which [say] returned. *)
Fixpoint delivered (tr : Trace) : list string :=
  match tr with
  | [] => []
  | ESay text None :: rest => text :: delivered rest
  | _ :: rest => delivered rest
  end.

Definition is_say_or_log (ev : Effect) : bool :=
  match ev with
  | ESay _ _ | ELog _ _ => true
  | ELlmCall _ | EAgentInvoke _ | ESqlExecute _ => false
  end.

(** ** The operations of the handler's expressions *)

(** [list[i]] on a list of strings. *)
Definition list_index (l : list string) (i : nat) : Result string :=
  match nth_error l i with
  | Some x => Ok x
  | None => Raise (mkExc IndexError "list index out of range")
  end.

Fixpoint dict_get (key : string) (entries : list (string * PyVal)) : option PyVal :=
  match entries with
  | [] => None
  | (k, x) :: rest => if String.eqb k key then Some x else dict_get key rest
  end.

(** [v[key]] for a string [key]: a lookup in a dictionary, a [TypeError]
    on every other type (the texts are CPython 3.11's). *)
Definition subscript (v : PyVal) (key : string) : Result PyVal :=
  match v with
  | PDict entries =>
      match dict_get key entries with
      | Some x => Ok x
      | None => Raise (mkExc KeyError (str_repr key))
      end
  | PList _ =>
      Raise (mkExc TypeError "list indices must be integers or slices, not str")
  | PStr _ =>
      Raise (mkExc TypeError "string indices must be integers, not 'str'")
  | _ =>
      Raise (mkExc TypeError ("'" ++ type_name v ++ "' object is not subscriptable"))
  end.

(** [v.split(sep, maxsplit)]: only a [str] has the method. *)
Definition method_split (v : PyVal) (sep : ascii) (maxsplit : nat) : Result (list string) :=
  match v with
  | PStr s => Ok (split sep maxsplit s)
  | _ => Raise (mkExc AttributeError
                  ("'" ++ type_name v ++ "' object has no attribute 'split'"))
  end.

Definition bind_result {A B} (r : Result A) (k : A -> Result B) : Result B :=
  match r with
  | Ok a => k a
  | Raise e => Raise e
  end.

End Eff.

Declare Scope py_scope.
Delimit Scope py_scope with py.
Notation "x <- m ;; k" := (Eff.bind m (fun x => k))
  (at level 61, m at next level, right associativity) : py_scope.
Notation "m ;; k" := (Eff.bind m (fun _ => k))
  (at level 61, right associativity) : py_scope.
Notation "x <~ r ;; k" := (Eff.bind_result r (fun x => k))
  (at level 61, r at next level, right associativity) : py_scope.

(* ------------------------------------------------------------------ *)
(** * The handler *)
(* ------------------------------------------------------------------ *)

Import Py Eff.
#[local] Open Scope py_scope.

(** [body['event'][key]]. *)
Definition event_field (body : PyVal) (key : string) : Result PyVal :=
  event <~ subscript body "event" ;;
  subscript event key.

(** Line 114: [body['event']['text'].split(' ', 1)[1]]. *)
Definition text_without_mention (body : PyVal) : Result string :=
  text <~ event_field body "text" ;;
  parts <~ method_split text space 1 ;;
  list_index parts 1.

Definition ack_message (user_id : PyVal) : string :=
  "Hey <@" ++ py_str user_id ++ ">, I'm on it! Let me check the data for you...".

Definition answer_message (output : PyVal) : string :=
  "Here is what I found:" ++ nl ++ nl ++ py_str output.

Definition error_message (e : PyExc) : string :=
  "Oops! I ran into an issue. Could you please rephrase your request? The error was: "
  ++ exc_str e.

(** Lines 112-130, the body of the [try]. *)
Definition process (say : SayBehaviour) (body : PyVal) : M unit :=
  question <- lift (text_without_mention body) ;;
  user_id <- lift (event_field body "user") ;;
  logger_info ("Received query from user " ++ py_str user_id ++ ": " ++ question) ;;
  call_say say (ack_message user_id) ;;
  let response := PDict [("input", PStr question); ("output", PStr "Hello World!")] in
  logger_info ("Agent's response: " ++ py_str response) ;;
  output <- lift (subscript response "output") ;;
  call_say say (answer_message output).

(** Lines 132-134, the [except Exception as e] branch. *)
Definition on_error (say : SayBehaviour) (e : PyExc) : M unit :=
  logger_error ("An error occurred: " ++ exc_str e) ;;
  call_say say (error_message e).

Definition handle_app_mention (say : SayBehaviour) (body : PyVal) : M unit :=
  try_except_Exception (process say body) (on_error say).

(* ------------------------------------------------------------------ *)
(** * Vocabulary of the properties *)
(* ------------------------------------------------------------------ *)

(** [needle] occurs verbatim in [hay]. *)
Definition Substring (needle hay : string) : Prop :=
  exists l r, hay = l ++ needle ++ r.

Fixpoint starts_with (p s : string) : bool :=
  match p, s with
  | EmptyString, _ => true
  | String a p', String b s' => Ascii.eqb a b && starts_with p' s'
  | String _ _, EmptyString => false
  end.

Fixpoint contains (needle hay : string) : bool :=
  starts_with needle hay ||
  match hay with
  | EmptyString => false
  | String _ rest => contains needle rest
  end.

(** The last text handed to [say]. *)
Definition final_message (tr : Trace) : option string :=
  match rev (messages tr) with
  | [] => None
  | m :: _ => Some m
  end.

(** The reply of line 130 with the placeholder of line 125 filled in. *)
Definition placeholder_reply : string :=
  "Here is what I found:" ++ nl ++ nl ++ "Hello World!".

(** A [say] that always returns. *)
Definition say_ok : SayBehaviour := fun _ _ => None.

(** A [say] that fails every call with a Slack API error. *)
Definition say_broken : SayBehaviour :=
  fun _ _ => Some (mkExc (OtherException "SlackApiError") "channel_not_found").

(** A [say] that returns except on its [k]-th call, where it raises [e]. *)
Definition say_fails_at (k : nat) (e : PyExc) : SayBehaviour :=
  fun n _ => if Nat.eqb n k then Some e else None.

Definition slack_api_error : PyExc := mkExc (OtherException "SlackApiError") "ratelimited".

Definition keyboard_interrupt : PyExc := mkExc (BaseExceptionOnly "KeyboardInterrupt") "".

(** The fixed head of the error reply of line 134. *)
Definition apology : string :=
  "Oops! I ran into an issue. Could you please rephrase your request? The error was: ".

(** An [app_mention] body as Slack delivers it, cut down to the envelope
    and the fields of the event. *)
Definition mention_body (text : string) (user : PyVal) : PyVal :=
  PDict [("type", PStr "event_callback");
         ("event", PDict [("type", PStr "app_mention");
                          ("user", user);
                          ("text", PStr text);
                          ("channel", PStr "C0GENERAL")])].

(** A mention with nothing after it. *)
Definition bare_mention : PyVal := mention_body "<@U0SONAR>" (PStr "U123").

(** The question of the spec's counting scenario. *)
Definition active_users_question : string := "how many active users are there".

Definition index_error : PyExc := mkExc IndexError "list index out of range".

(** "No text said to the user holds the text of an exception raised
    while the event was processed." *)
Definition reply_hides_exception (say : SayBehaviour) (body : PyVal) : Prop :=
  forall e text,
    fst (run (process say body)) = Raise e ->
    In text (messages (snd (run (handle_app_mention say body)))) ->
    ~ Substring (exc_str e) text.

(** "Whenever the event text holds a space, the last text said is the
    placeholder reply." *)
Definition placeholder_is_final (say : SayBehaviour) (body : PyVal) : Prop :=
  forall text,
    event_field body "text" = Ok (PStr text) ->
    has_char space text = true ->
    final_message (snd (run (handle_app_mention say body))) = Some placeholder_reply.

(** A mention posted by an integration: the event names a bot and has no
    ['user'] entry. *)
Definition integration_mention : PyVal :=
  PDict [("type", PStr "event_callback");
         ("event", PDict [("type", PStr "app_mention");
                          ("bot_id", PStr "B042");
                          ("text", PStr "<@U0SONAR> list the tables");
                          ("channel", PStr "C0GENERAL")])].

(** "The final reply holds the count 42." *)
Definition reply_reports_count (say : SayBehaviour) (body : PyVal) : Prop :=
  exists text,
    final_message (snd (run (handle_app_mention say body))) = Some text
    /\ Substring "42" text.

(* ------------------------------------------------------------------ *)
(** * Strings *)
(* ------------------------------------------------------------------ *)

Section StringFacts.

Lemma starts_with_iff (p s : string) :
  starts_with p s = true <-> exists r, s = p ++ r.
Proof.
  revert s. induction p as [|a p IH]; intros s; simpl.
  - split; [intros _; now exists s | reflexivity].
  - destruct s as [|b s].
    + split; [discriminate | intros [r H]; discriminate].
    + rewrite andb_true_iff, Ascii.eqb_eq, IH. split.
      * intros [-> [r ->]]. now exists r.
      * intros [r H]. injection H as -> ->. split; [reflexivity | now exists r].
Qed.

Lemma contains_iff (needle hay : string) :
  contains needle hay = true <-> Substring needle hay.
Proof.
  unfold Substring. induction hay as [|c hay IH]; simpl.
  - rewrite orb_false_r, starts_with_iff. split.
    + intros [r H]. now exists EmptyString, r.
    + intros [l [r H]]. destruct l; [now exists r | discriminate].
  - rewrite orb_true_iff, starts_with_iff, IH. split.
    + intros [[r H] | [l [r H]]].
      * now exists EmptyString, r.
      * exists (String c l), r. simpl. now rewrite H.
    + intros [l [r H]]. destruct l as [|c' l].
      * left. now exists r.
      * right. simpl in H. injection H as _ H. now exists l, r.
Qed.

Lemma Substring_suffix (p s : string) : Substring s (p ++ s).
Proof.
  exists p, EmptyString. f_equal. induction s; simpl; congruence.
Qed.

(** [cut] finds a separator exactly when the string holds one. *)
Lemma cut_none (sep : ascii) (s : string) :
  has_char sep s = false -> cut sep s = None.
Proof.
  induction s as [|c s IH]; simpl; [reflexivity|].
  intros H. apply orb_false_iff in H as [Hc Hs].
  rewrite Hc, (IH Hs). reflexivity.
Qed.

Lemma cut_some (sep : ascii) (s : string) :
  has_char sep s = true ->
  exists before after,
    cut sep s = Some (before, after)
    /\ s = before ++ String sep after
    /\ has_char sep before = false.
Proof.
  induction s as [|c s IH]; simpl; [discriminate|].
  destruct (Ascii.eqb c sep) eqn:Hc; simpl.
  - intros _. apply Ascii.eqb_eq in Hc as ->.
    now exists EmptyString, s.
  - intros H. destruct (IH H) as (b & a & -> & -> & Hb).
    exists (String c b), a. simpl. now rewrite Hc, Hb.
Qed.

(** [cut] of a string built around its first separator. *)
Lemma cut_app (sep : ascii) (before after : string) :
  has_char sep before = false ->
  cut sep (before ++ String sep after) = Some (before, after).
Proof.
  induction before as [|c b IH]; simpl.
  - now rewrite Ascii.eqb_refl.
  - intros H. apply orb_false_iff in H as [Hc Hb].
    now rewrite Hc, (IH Hb).
Qed.

End StringFacts.

(* ------------------------------------------------------------------ *)
(** * The runs of the handler *)
(* ------------------------------------------------------------------ *)

Section Runs.

Variable say : SayBehaviour.
Variable body : PyVal.

(** The four ways the [try] block can end: before anything was said, at
    the acknowledgment, at the answer, or normally. *)
Lemma process_run :
  run (process say body) =
  match text_without_mention body with
  | Raise e => (Raise e, [])
  | Ok question =>
      match event_field body "user" with
      | Raise e => (Raise e, [])
      | Ok user_id =>
          let received :=
            ELog INFO ("Received query from user " ++ py_str user_id ++ ": " ++ question) in
          let response :=
            ELog INFO ("Agent's response: " ++
                       py_str (PDict [("input", PStr question);
                                      ("output", PStr "Hello World!")])) in
          match say 0 (ack_message user_id) with
          | Some e => (Raise e, [received; ESay (ack_message user_id) (Some e)])
          | None =>
              match say 1 placeholder_reply with
              | Some e =>
                  (Raise e, [received; ESay (ack_message user_id) None;
                             response; ESay placeholder_reply (Some e)])
              | None =>
                  (Ok tt, [received; ESay (ack_message user_id) None;
                           response; ESay placeholder_reply None])
              end
          end
      end
  end.
Proof.
  unfold run, process, bind, lift.
  destruct (text_without_mention body) as [question|e]; [|reflexivity].
  destruct (event_field body "user") as [user_id|e]; [|reflexivity].
  unfold logger_info, emit, call_say, say_count; simpl.
  destruct (say 0 (ack_message user_id)); [reflexivity|].
  change (answer_message (PStr "Hello World!")) with placeholder_reply.
  simpl.
  destruct (say 1 placeholder_reply); reflexivity.
Qed.

(** The [except] branch logs, then says the error text, after whatever
    the [try] block did. *)
Lemma on_error_run (e : PyExc) (tr : Trace) :
  on_error say e tr =
  (match say (say_count tr) (error_message e) with
   | None => Ok tt
   | Some e' => Raise e'
   end,
   (tr ++ [ELog ERROR ("An error occurred: " ++ exc_str e);
           ESay (error_message e) (say (say_count tr) (error_message e))])%list).
Proof.
  unfold on_error, bind, logger_error, emit, call_say.
  assert (Hc : say_count (tr ++ [ELog ERROR ("An error occurred: " ++ exc_str e)])%list
               = say_count tr).
  { unfold say_count. rewrite filter_app. simpl. now rewrite app_nil_r. }
  rewrite Hc.
  destruct (say (say_count tr) (error_message e)); now rewrite <- app_assoc.
Qed.

Lemma handle_app_mention_run :
  run (handle_app_mention say body) =
  match run (process say body) with
  | (Ok a, tr) => (Ok a, tr)
  | (Raise e, tr) => if is_Exception e then on_error say e tr else (Raise e, tr)
  end.
Proof. reflexivity. Qed.

End Runs.

Section Traces.

Lemma messages_app (a b : Trace) :
  messages (a ++ b)%list = (messages a ++ messages b)%list.
Proof.
  induction a as [|ev a IH]; simpl; [reflexivity|].
  destruct ev; simpl; now rewrite IH.
Qed.

Lemma final_message_snoc (tr : Trace) (text : string) (r : option PyExc) :
  final_message (tr ++ [ESay text r])%list = Some text.
Proof.
  unfold final_message. rewrite messages_app, rev_app_distr. reflexivity.
Qed.

(** When [say] never raises, what was said was delivered. *)
Lemma call_say_returns (say : SayBehaviour) (text : string) (tr : Trace) :
  say_never_raises say ->
  call_say say text tr = (Ok tt, (tr ++ [ESay text None])%list).
Proof. intros H. unfold call_say. now rewrite H. Qed.

End Traces.

Section Extraction.

Variable body : PyVal.

(** The handler's own expressions raise subclasses of [Exception] only. *)
Lemma subscript_raises_Exception (v : PyVal) (key : string) (e : PyExc) :
  subscript v key = Raise e -> is_Exception e = true.
Proof.
  destruct v; simpl; try (intros [= <-]; reflexivity).
  destruct (dict_get key entries); [discriminate | intros [= <-]; reflexivity].
Qed.

Lemma event_field_raises_Exception (key : string) (e : PyExc) :
  event_field body key = Raise e -> is_Exception e = true.
Proof.
  unfold event_field.
  destruct (subscript body "event") as [event|e'] eqn:Hev; simpl.
  - apply subscript_raises_Exception.
  - intros [= <-]. exact (subscript_raises_Exception _ _ _ Hev).
Qed.

Lemma text_without_mention_raises_Exception (e : PyExc) :
  text_without_mention body = Raise e -> is_Exception e = true.
Proof.
  unfold text_without_mention.
  destruct (event_field body "text") as [text|e'] eqn:Htext; simpl.
  - destruct text; simpl; try (intros [= <-]; reflexivity).
    unfold list_index. destruct (nth_error _ 1); [discriminate | intros [= <-]; reflexivity].
  - intros [= <-]. exact (event_field_raises_Exception _ _ Htext).
Qed.

Variable text : string.
Hypothesis Htext : event_field body "text" = Ok (PStr text).

(** A text with a space yields what follows its first space. *)
Lemma text_without_mention_question :
  has_char space text = true ->
  exists mention question,
    text = mention ++ String space question
    /\ has_char space mention = false
    /\ text_without_mention body = Ok question.
Proof.
  intros Hsp. destruct (cut_some space text Hsp) as (m & q & Hcut & Heq & Hm).
  exists m, q. repeat split; try assumption.
  unfold text_without_mention. rewrite Htext. simpl. now rewrite Hcut.
Qed.

(** A text without a space has no second part: [[1]] raises. *)
Lemma text_without_mention_bare :
  has_char space text = false ->
  text_without_mention body = Raise index_error.
Proof.
  intros Hsp. unfold text_without_mention. rewrite Htext. simpl.
  now rewrite (cut_none space text Hsp).
Qed.

End Extraction.

(** Splits a run of the handler into the ways it can go: where the
    [try] block stops, and whether [except Exception] takes what [say]
    raised. *)
Ltac handler_cases say body :=
  rewrite (handle_app_mention_run say body), (process_run say body);
  let Hq := fresh "Hquestion" in
  let Hu := fresh "Huser" in
  destruct (text_without_mention body) as [?question|?e] eqn:Hq;
  [ destruct (event_field body "user") as [?user_id|?e] eqn:Hu;
    [ cbv zeta;
      destruct (say 0 (ack_message _)) as [?e|] eqn:?;
      [ | destruct (say 1 placeholder_reply) as [?e|] eqn:? ]
    | cbn beta iota; rewrite (event_field_raises_Exception _ _ _ Hu) ]
  | cbn beta iota; rewrite (text_without_mention_raises_Exception _ _ Hq) ];
  cbn beta iota;
  try match goal with
      | |- context [is_Exception ?e] => destruct (is_Exception e) eqn:?
      end;
  rewrite ?on_error_run.

Lemma say_ok_never_raises : say_never_raises say_ok.
Proof. intros n text. reflexivity. Qed.

(** Whatever [say] does, the texts it is handed follow one of five
    shapes: the acknowledgment never comes after another message. *)
Lemma messages_shape (say : SayBehaviour) (body : PyVal) :
  let said := messages (snd (run (handle_app_mention say body))) in
  (exists e, said = [error_message e])
  \/ (exists u, said = [ack_message u])
  \/ (exists u e, said = [ack_message u; error_message e])
  \/ (exists u, said = [ack_message u; placeholder_reply])
  \/ (exists u e, said = [ack_message u; placeholder_reply; error_message e]).
Proof.
  handler_cases say body; cbn [snd app messages].
  - right; right; left. now exists user_id, e.
  - right; left. now exists user_id.
  - right; right; right; right. now exists user_id, e.
  - right; right; right; left. now exists user_id.
  - right; right; right; left. now exists user_id.
  - left. now exists e.
  - left. now exists e.
Qed.

(** An [Exception] out of the [try] block ends with the error reply. *)
Lemma except_branch_reply (say : SayBehaviour) (body : PyVal) (e : PyExc) :
  fst (run (process say body)) = Raise e ->
  is_Exception e = true ->
  final_message (snd (run (handle_app_mention say body))) = Some (error_message e).
Proof.
  intros Hraise Hexc.
  rewrite handle_app_mention_run.
  destruct (run (process say body)) as [[[]|e'] tr]; simpl in Hraise; [discriminate|].
  injection Hraise as ->. rewrite Hexc, on_error_run.
  cbn [snd].
  change [ELog ERROR ("An error occurred: " ++ exc_str e);
          ESay (error_message e) (say (say_count tr) (error_message e))]
    with ([ELog ERROR ("An error occurred: " ++ exc_str e)]
          ++ [ESay (error_message e) (say (say_count tr) (error_message e))])%list.
  rewrite app_assoc. apply final_message_snoc.
Qed.

(** With a [say] that returns, the [try] block raises only what its own
    expressions raise. *)
Lemma process_raises_Exception (say : SayBehaviour) (body : PyVal) (e : PyExc) :
  say_never_raises say ->
  fst (run (process say body)) = Raise e ->
  is_Exception e = true.
Proof.
  intros Hsay. rewrite process_run.
  destruct (text_without_mention body) as [question|e1] eqn:Hq.
  - destruct (event_field body "user") as [user_id|e2] eqn:Hu.
    + cbv zeta. rewrite !Hsay. discriminate.
    + intros [= <-]. exact (event_field_raises_Exception _ _ _ Hu).
  - intros [= <-]. exact (text_without_mention_raises_Exception _ _ Hq).
Qed.

(** ** Runs on concrete bodies *)

Example run_question :
  run (handle_app_mention say_ok (mention_body "<@U0SONAR> list the tables" (PStr "U123")))
  = (Ok tt,
     [ELog INFO "Received query from user U123: list the tables";
      ESay "Hey <@U123>, I'm on it! Let me check the data for you..." None;
      ELog INFO "Agent's response: {'input': 'list the tables', 'output': 'Hello World!'}";
      ESay placeholder_reply None]).
Proof. reflexivity. Qed.

Example run_empty_body :
  messages (snd (run (handle_app_mention say_ok (PDict []))))
  = ["Oops! I ran into an issue. Could you please rephrase your request? The error was: 'event'"].
Proof. reflexivity. Qed.

Example run_text_not_a_string :
  messages (snd (run (handle_app_mention say_ok
                        (PDict [("event", PDict [("text", PInt 3); ("user", PStr "U123")])]))))
  = ["Oops! I ran into an issue. Could you please rephrase your request? The error was: 'int' object has no attribute 'split'"].
Proof. reflexivity. Qed.

(** Without a ['user'] entry line 115 raises [KeyError] after the
    extraction succeeded, and nothing but the error reply is said. *)
Example run_missing_user :
  messages (snd (run (handle_app_mention say_ok
                        (PDict [("event", PDict [("text", PStr "<@U0SONAR> list the tables")])]))))
  = ["Oops! I ran into an issue. Could you please rephrase your request? The error was: 'user'"].
Proof. reflexivity. Qed.

(** A [say] that fails on the answer is called a third time, from the
    [except] branch. *)
Example run_answer_fails :
  messages
    (snd (run (handle_app_mention
                 (fun n _ => if Nat.eqb n 1
                             then Some (mkExc (OtherException "SlackApiError") "ratelimited")
                             else None)
                 (mention_body "<@U0SONAR> list the tables" (PStr "U123")))))
  = ["Hey <@U123>, I'm on it! Let me check the data for you...";
     placeholder_reply;
     "Oops! I ran into an issue. Could you please rephrase your request? The error was: ratelimited"].
Proof. reflexivity. Qed.

(* ------------------------------------------------------------------ *)
(** * Properties of the handler *)
(* ------------------------------------------------------------------ *)

(** ** Error replies *)

(** C1, as stated, fails: for a mention with nothing after it the
    extraction raises [IndexError] and the reply ends with its text,
    ["list index out of range"], word for word. *)
Lemma error_reply_leaks_exception_text :
  ~ reply_hides_exception say_ok bare_mention.
Proof.
  intros H.
  apply (H index_error (error_message index_error)).
  - reflexivity.
  - left. reflexivity.
  - apply Substring_suffix.
Qed.

(** C1, amended: when the [try] block raises an [Exception] [e], the last
    text handed to [say] is the fixed apology followed by [str(e)], so
    the exception text reaches the user verbatim. *)
Theorem error_reply_quotes_exception (say : SayBehaviour) (body : PyVal) (e : PyExc) :
  fst (run (process say body)) = Raise e ->
  is_Exception e = true ->
  final_message (snd (run (handle_app_mention say body)))
  = Some ("Oops! I ran into an issue. Could you please rephrase your request? The error was: "
          ++ exc_str e)
  /\ Substring (exc_str e) (error_message e).
Proof.
  intros Hraise Hexc. split.
  - exact (except_branch_reply say body e Hraise Hexc).
  - apply Substring_suffix.
Qed.

Lemma error_reply_quotes_exception_witness :
  final_message (snd (run (handle_app_mention say_ok (PDict []))))
  = Some ("Oops! I ran into an issue. Could you please rephrase your request? The error was: "
          ++ "'event'")
  /\ Substring "'event'" (error_message (mkExc KeyError "'event'")).
Proof.
  apply (error_reply_quotes_exception say_ok (PDict []) (mkExc KeyError "'event'"));
    reflexivity.
Defined.

(** C2: whatever the body and whatever [say] does, the handler hands at
    least one text to [say]. *)
Theorem handle_app_mention_always_replies (say : SayBehaviour) (body : PyVal) :
  messages (snd (run (handle_app_mention say body))) <> [].
Proof.
  handler_cases say body; cbn [snd app messages]; discriminate.
Qed.

(** C10: given a [say] that never raises, the handler returns normally on
    every body, also one without the ['event'], ['text'] or ['user'] key:
    whatever the [try] block raises is caught and answered with the
    error reply. *)
Theorem handle_app_mention_never_raises (say : SayBehaviour) (body : PyVal) :
  say_never_raises say ->
  fst (run (handle_app_mention say body)) = Ok tt
  /\ forall e,
       fst (run (process say body)) = Raise e ->
       is_Exception e = true
       /\ final_message (snd (run (handle_app_mention say body))) = Some (error_message e).
Proof.
  intros Hsay. split.
  - handler_cases say body; cbn [fst]; rewrite ?Hsay in *; try reflexivity; discriminate.
  - intros e Hraise.
    pose proof (process_raises_Exception say body e Hsay Hraise) as Hexc.
    split; [exact Hexc|]. exact (except_branch_reply say body e Hraise Hexc).
Qed.

Lemma handle_app_mention_never_raises_witness :
  say_never_raises say_ok
  /\ fst (run (handle_app_mention say_ok (PDict [("event", PNone)]))) = Ok tt
  /\ forall e,
       fst (run (process say_ok (PDict [("event", PNone)]))) = Raise e ->
       is_Exception e = true
       /\ final_message (snd (run (handle_app_mention say_ok (PDict [("event", PNone)]))))
          = Some (error_message e).
Proof.
  split.
  - exact say_ok_never_raises.
  - apply (handle_app_mention_never_raises say_ok (PDict [("event", PNone)])).
    exact say_ok_never_raises.
Defined.

(** The proviso of C10 is needed: a [say] that raises lets the exception
    of the [except] branch through. *)
Lemma handle_app_mention_may_raise :
  fst (run (handle_app_mention say_broken bare_mention))
  = Raise (mkExc (OtherException "SlackApiError") "channel_not_found").
Proof. reflexivity. Qed.

(** ** The placeholder answer *)

(** C3, as stated, fails twice over.  A text with a space is not enough:
    without a ['user'] entry line 115 raises and the last text said is
    the error reply naming ['user']; and when [say] raises on the
    acknowledgment the last text said is the error reply quoting that
    exception. *)
Lemma placeholder_is_not_always_final :
  ~ placeholder_is_final say_ok integration_mention
  /\ ~ placeholder_is_final (say_fails_at 0 slack_api_error)
        (mention_body "<@U0SONAR> list the tables" (PStr "U123")).
Proof.
  split; intros H.
  - specialize (H "<@U0SONAR> list the tables" eq_refl eq_refl).
    vm_compute in H. discriminate H.
  - specialize (H "<@U0SONAR> list the tables" eq_refl eq_refl).
    vm_compute in H. discriminate H.
Qed.

(** C3, amended: for an event whose text holds a space and which has a
    ['user'] entry, and a [say] that returns, the last text said is the
    fixed placeholder reply, whatever the question. *)
Theorem final_message_is_placeholder
    (say : SayBehaviour) (body : PyVal) (text : string) (user_id : PyVal) :
  event_field body "text" = Ok (PStr text) ->
  has_char space text = true ->
  event_field body "user" = Ok user_id ->
  say_never_raises say ->
  final_message (snd (run (handle_app_mention say body)))
  = Some ("Here is what I found:" ++ nl ++ nl ++ "Hello World!").
Proof.
  intros Htext Hsp Huser Hsay.
  destruct (text_without_mention_question body text Htext Hsp)
    as (mention & question & _ & _ & Hq).
  rewrite handle_app_mention_run, process_run, Hq, Huser.
  cbv zeta. rewrite !Hsay. reflexivity.
Qed.

Lemma final_message_is_placeholder_witness :
  final_message
    (snd (run (handle_app_mention say_ok
                 (mention_body "<@U0SONAR> what is the total revenue" (PStr "U123")))))
  = Some ("Here is what I found:" ++ nl ++ nl ++ "Hello World!").
Proof.
  apply (final_message_is_placeholder say_ok
           (mention_body "<@U0SONAR> what is the total revenue" (PStr "U123"))
           "<@U0SONAR> what is the total revenue" (PStr "U123")).
  - reflexivity.
  - reflexivity.
  - reflexivity.
  - exact say_ok_never_raises.
Defined.

(** C7, as stated, fails: asked how many active users there are, the
    handler's final reply is the placeholder, which holds no "42". *)
Lemma active_users_reply_lacks_count :
  ~ reply_reports_count say_ok
      (mention_body ("<@U0SONAR> " ++ active_users_question) (PStr "U123")).
Proof.
  intros (text & Hfinal & Hsub).
  vm_compute in Hfinal. injection Hfinal as <-.
  apply contains_iff in Hsub. vm_compute in Hsub. discriminate.
Qed.

(** C7, amended: for the question "how many active users are there",
    from any user and through any [say] that returns, the final reply is
    the placeholder reply, and it does not hold "42"; no schema and no
    executor take part. *)
Theorem active_users_reply_is_placeholder (say : SayBehaviour) (user_id : PyVal) :
  say_never_raises say ->
  final_message
    (snd (run (handle_app_mention say
                 (mention_body ("<@U0SONAR> " ++ active_users_question) user_id))))
  = Some placeholder_reply
  /\ ~ Substring "42" placeholder_reply.
Proof.
  intros Hsay. split.
  - rewrite handle_app_mention_run, process_run.
    change (text_without_mention _) with (@Ok string active_users_question).
    change (event_field _ "user") with (Ok user_id).
    cbv zeta. rewrite !Hsay. reflexivity.
  - intros Hsub. apply contains_iff in Hsub. vm_compute in Hsub. discriminate.
Qed.

Lemma active_users_reply_is_placeholder_witness :
  final_message
    (snd (run (handle_app_mention say_ok
                 (mention_body ("<@U0SONAR> " ++ active_users_question) (PStr "U123")))))
  = Some placeholder_reply
  /\ ~ Substring "42" placeholder_reply.
Proof.
  apply (active_users_reply_is_placeholder say_ok (PStr "U123")).
  exact say_ok_never_raises.
Defined.

(** ** Messages and their order *)

(** C5: when the [try] block ends normally, exactly two texts were handed
    to [say], and both were delivered: first the acknowledgment that
    mentions the requesting user, then the final answer. *)
Theorem success_path_messages (say : SayBehaviour) (body : PyVal) :
  fst (run (process say body)) = Ok tt ->
  exists user_id,
    event_field body "user" = Ok user_id
    /\ messages (snd (run (handle_app_mention say body)))
       = ["Hey <@" ++ py_str user_id ++ ">, I'm on it! Let me check the data for you...";
          placeholder_reply]
    /\ delivered (snd (run (handle_app_mention say body)))
       = messages (snd (run (handle_app_mention say body))).
Proof.
  rewrite handle_app_mention_run, process_run.
  destruct (text_without_mention body) as [question|e]; [|discriminate].
  destruct (event_field body "user") as [user_id|e]; [|discriminate].
  cbv zeta.
  destruct (say 0 (ack_message user_id)); [discriminate|].
  destruct (say 1 placeholder_reply); [discriminate|].
  intros _. exists user_id. repeat split.
Qed.

Lemma success_path_messages_witness :
  exists user_id,
    event_field (mention_body "<@U0SONAR> list the tables" (PInt 7)) "user" = Ok user_id
    /\ messages (snd (run (handle_app_mention say_ok
                             (mention_body "<@U0SONAR> list the tables" (PInt 7)))))
       = ["Hey <@" ++ py_str user_id ++ ">, I'm on it! Let me check the data for you...";
          placeholder_reply]
    /\ delivered (snd (run (handle_app_mention say_ok
                              (mention_body "<@U0SONAR> list the tables" (PInt 7)))))
       = messages (snd (run (handle_app_mention say_ok
                               (mention_body "<@U0SONAR> list the tables" (PInt 7))))).
Proof.
  apply (success_path_messages say_ok (mention_body "<@U0SONAR> list the tables" (PInt 7))).
  reflexivity.
Defined.

(** C8: a text without a space makes the extraction raise [IndexError];
    the [except] branch logs it and says the error reply, which is the
    only text said: there is no acknowledgment. *)
Theorem bare_mention_gets_only_error_reply
    (say : SayBehaviour) (body : PyVal) (text : string) :
  event_field body "text" = Ok (PStr text) ->
  has_char space text = false ->
  text_without_mention body = Raise (mkExc IndexError "list index out of range")
  /\ snd (run (handle_app_mention say body))
     = [ELog ERROR "An error occurred: list index out of range";
        ESay "Oops! I ran into an issue. Could you please rephrase your request? The error was: list index out of range"
             (say 0 (error_message index_error))]
  /\ messages (snd (run (handle_app_mention say body)))
     = ["Oops! I ran into an issue. Could you please rephrase your request? The error was: list index out of range"].
Proof.
  intros Htext Hsp.
  pose proof (text_without_mention_bare body text Htext Hsp) as Hq.
  split; [exact Hq|].
  rewrite handle_app_mention_run, process_run, Hq.
  cbn beta iota. change (is_Exception index_error) with true. cbn iota.
  rewrite on_error_run. split; reflexivity.
Qed.

Lemma bare_mention_gets_only_error_reply_witness :
  text_without_mention bare_mention = Raise (mkExc IndexError "list index out of range")
  /\ snd (run (handle_app_mention say_ok bare_mention))
     = [ELog ERROR "An error occurred: list index out of range";
        ESay "Oops! I ran into an issue. Could you please rephrase your request? The error was: list index out of range"
             (say_ok 0 (error_message index_error))]
  /\ messages (snd (run (handle_app_mention say_ok bare_mention)))
     = ["Oops! I ran into an issue. Could you please rephrase your request? The error was: list index out of range"].
Proof.
  apply (bare_mention_gets_only_error_reply say_ok bare_mention "<@U0SONAR>");
    reflexivity.
Defined.

(** ** What the handler touches and what it depends on *)

(** C4: every effect of a run is a call of [say] or a log record; the
    trace holds no LLM call, no agent invocation and no SQL execution. *)
Theorem handle_app_mention_only_says_and_logs (say : SayBehaviour) (body : PyVal) :
  forallb is_say_or_log (snd (run (handle_app_mention say body))) = true
  /\ (forall prompt, ~ In (ELlmCall prompt) (snd (run (handle_app_mention say body))))
  /\ (forall input, ~ In (EAgentInvoke input) (snd (run (handle_app_mention say body))))
  /\ (forall sql, ~ In (ESqlExecute sql) (snd (run (handle_app_mention say body)))).
Proof.
  set (tr := snd (run (handle_app_mention say body))).
  assert (Hall : forallb is_say_or_log tr = true).
  { subst tr. handler_cases say body; reflexivity. }
  split; [exact Hall|].
  rewrite forallb_forall in Hall.
  repeat split; intros x Hin; apply Hall in Hin; discriminate.
Qed.

(** The run of the handler is decided by [say] and by what the two
    reads of the event yield. *)
Lemma handle_app_mention_reads (say : SayBehaviour) (body1 body2 : PyVal) :
  event_field body1 "text" = event_field body2 "text" ->
  event_field body1 "user" = event_field body2 "user" ->
  run (handle_app_mention say body1) = run (handle_app_mention say body2).
Proof.
  intros Htext Huser.
  rewrite !handle_app_mention_run, !process_run.
  unfold text_without_mention. now rewrite Htext, Huser.
Qed.

(** C9: two bodies on which [body['event']['text']] and
    [body['event']['user']] evaluate alike get the same sequence of
    texts through the same [say]; nothing else in the body matters. *)
Theorem handle_app_mention_deterministic (say : SayBehaviour) (body1 body2 : PyVal) :
  event_field body1 "text" = event_field body2 "text" ->
  event_field body1 "user" = event_field body2 "user" ->
  messages (snd (run (handle_app_mention say body1)))
  = messages (snd (run (handle_app_mention say body2))).
Proof.
  intros Htext Huser.
  now rewrite (handle_app_mention_reads say body1 body2 Htext Huser).
Qed.

Lemma handle_app_mention_deterministic_witness :
  messages (snd (run (handle_app_mention say_ok
                        (mention_body "<@U0SONAR> list the tables" (PStr "U123")))))
  = messages (snd (run (handle_app_mention say_ok
                          (PDict [("event", PDict [("text", PStr "<@U0SONAR> list the tables");
                                                   ("ts", PStr "1700000000.000100");
                                                   ("user", PStr "U123")]);
                                  ("team_id", PStr "T0")])))).
Proof.
  apply (handle_app_mention_deterministic say_ok
           (mention_body "<@U0SONAR> list the tables" (PStr "U123"))
           (PDict [("event", PDict [("text", PStr "<@U0SONAR> list the tables");
                                    ("ts", PStr "1700000000.000100");
                                    ("user", PStr "U123")]);
                   ("team_id", PStr "T0")]));
    reflexivity.
Defined.

(* ------------------------------------------------------------------ *)
(** * Further properties: the extraction of line 114 *)
(* ------------------------------------------------------------------ *)

Section SplitFacts.

Variable sep : ascii.

Lemma join_cons (p : string) (parts : list string) :
  parts <> [] ->
  join (String sep EmptyString) (p :: parts)
  = p ++ String sep (join (String sep EmptyString) parts).
Proof. destruct parts; [congruence | reflexivity]. Qed.

Lemma split_not_nil (maxsplit : nat) (s : string) : split sep maxsplit s <> [].
Proof.
  destruct maxsplit; simpl; [discriminate|].
  destruct (cut sep s) as [[b a]|]; discriminate.
Qed.

(** [cut] either finds the first separator or there is none. *)
Lemma cut_cases (s : string) :
  (cut sep s = None /\ has_char sep s = false)
  \/ (exists before after,
        cut sep s = Some (before, after)
        /\ s = before ++ String sep after
        /\ has_char sep before = false).
Proof.
  destruct (has_char sep s) eqn:H.
  - right. exact (cut_some sep s H).
  - left. split; [exact (cut_none sep s H) | reflexivity].
Qed.

End SplitFacts.

(** For a one-character separator and a [maxsplit] that is not negative,
    joining the parts with the separator gives the string back, and
    there are at least one and at most [maxsplit + 1] parts. *)
Lemma split_join (sep : ascii) (maxsplit : nat) (s : string) :
  join (String sep EmptyString) (split sep maxsplit s) = s
  /\ 1 <= length (split sep maxsplit s) <= S maxsplit.
Proof.
  revert s. induction maxsplit as [|m IH]; intros s; simpl.
  - repeat split; lia.
  - destruct (cut_cases sep s) as [[-> _] | (b & a & -> & Hs & _)].
    + simpl. repeat split; lia.
    + destruct (IH a) as (Hjoin & Hlo & Hhi).
      rewrite join_cons by apply split_not_nil.
      rewrite Hjoin. simpl. repeat split; try lia. now symmetry.
Qed.

(** X2: when the event text is [mention ++ " " ++ question] and the
    mention holds no space, line 114 yields exactly [question]: only the
    first space cuts, later spaces stay in the question, and the question
    may be empty. *)
Theorem question_is_text_after_first_space (body : PyVal) (mention question : string) :
  event_field body "text" = Ok (PStr (mention ++ String space question)) ->
  has_char space mention = false ->
  text_without_mention body = Ok question.
Proof.
  intros Htext Hm. unfold text_without_mention. rewrite Htext. simpl.
  now rewrite (cut_app space mention question Hm).
Qed.

Lemma question_is_text_after_first_space_witness :
  text_without_mention (mention_body ("<@U0SONAR>" ++ String space " top  5 users ") PNone)
  = Ok " top  5 users ".
Proof.
  apply (question_is_text_after_first_space
           (mention_body ("<@U0SONAR>" ++ String space " top  5 users ") PNone)
           "<@U0SONAR>" " top  5 users ");
    reflexivity.
Defined.

(** X3: line 114 succeeds only on a string with a space: if it yields
    [question], the event text is a [str] of the form
    [mention ++ " " ++ question] whose mention holds no space. *)
Theorem extraction_succeeds_only_on_spaced_text (body : PyVal) (question : string) :
  text_without_mention body = Ok question ->
  exists mention,
    event_field body "text" = Ok (PStr (mention ++ String space question))
    /\ has_char space mention = false.
Proof.
  unfold text_without_mention.
  destruct (event_field body "text") as [v|e]; simpl; [|discriminate].
  destruct v; simpl; try discriminate.
  destruct (cut_cases space s) as [[-> _] | (b & a & -> & Hs & Hb)]; simpl.
  - discriminate.
  - intros [= <-]. exists b. now rewrite Hs.
Qed.

Lemma extraction_succeeds_only_on_spaced_text_witness :
  exists mention,
    event_field (mention_body "<@U0SONAR> list the tables" PNone) "text"
    = Ok (PStr (mention ++ String space "list the tables"))
    /\ has_char space mention = false.
Proof.
  apply (extraction_succeeds_only_on_spaced_text
           (mention_body "<@U0SONAR> list the tables" PNone) "list the tables").
  reflexivity.
Defined.

(* ------------------------------------------------------------------ *)
(** * Further properties: bodies the extraction rejects *)
(* ------------------------------------------------------------------ *)

(** A failed extraction is logged and answered, and that is all. *)
Lemma on_extraction_failure (say : SayBehaviour) (body : PyVal) (e : PyExc) :
  text_without_mention body = Raise e ->
  run (handle_app_mention say body)
  = (match say 0 (apology ++ exc_str e) with
     | None => Ok tt
     | Some e' => Raise e'
     end,
     [ELog ERROR ("An error occurred: " ++ exc_str e);
      ESay (apology ++ exc_str e) (say 0 (apology ++ exc_str e))]).
Proof.
  intros Hq.
  rewrite handle_app_mention_run, process_run, Hq. cbn beta iota.
  rewrite (text_without_mention_raises_Exception _ _ Hq), on_error_run.
  reflexivity.
Qed.

(** X4: whenever line 114 raises, whatever the exception and whatever
    the rest of the body holds, the run is one ERROR record and one call
    of [say] with the error reply; the handler ends as that call does.
    Nothing is acknowledged and the ['user'] entry is never read. *)
Theorem extraction_failure_run (say : SayBehaviour) (body : PyVal) (e : PyExc) :
  text_without_mention body = Raise e ->
  run (handle_app_mention say body)
  = (match say 0 (apology ++ exc_str e) with
     | None => Ok tt
     | Some e' => Raise e'
     end,
     [ELog ERROR ("An error occurred: " ++ exc_str e);
      ESay (apology ++ exc_str e) (say 0 (apology ++ exc_str e))]).
Proof. exact (on_extraction_failure say body e). Qed.

Lemma extraction_failure_run_witness :
  run (handle_app_mention say_broken (PDict [("event", PList [])]))
  = (match say_broken 0 (apology ++ "list indices must be integers or slices, not str") with
     | None => Ok tt
     | Some e' => Raise e'
     end,
     [ELog ERROR ("An error occurred: " ++ "list indices must be integers or slices, not str");
      ESay (apology ++ "list indices must be integers or slices, not str")
           (say_broken 0 (apology ++ "list indices must be integers or slices, not str"))]).
Proof.
  apply (extraction_failure_run say_broken (PDict [("event", PList [])])
           (mkExc TypeError "list indices must be integers or slices, not str")).
  reflexivity.
Defined.

(** X5: a dictionary body without an ['event'] key is answered with the
    error reply that names the key, ['event'] in quotes, and nothing
    else. *)
Theorem missing_event_reply (say : SayBehaviour) (entries : list (string * PyVal)) :
  dict_get "event" entries = None ->
  messages (snd (run (handle_app_mention say (PDict entries))))
  = ["Oops! I ran into an issue. Could you please rephrase your request? The error was: 'event'"].
Proof.
  intros Hev.
  rewrite (on_extraction_failure say (PDict entries) (mkExc KeyError "'event'")).
  - reflexivity.
  - unfold text_without_mention, event_field. simpl. now rewrite Hev.
Qed.

Lemma missing_event_reply_witness :
  messages (snd (run (handle_app_mention say_ok
                        (PDict [("type", PStr "url_verification");
                                ("challenge", PStr "3eZbrw1a")]))))
  = ["Oops! I ran into an issue. Could you please rephrase your request? The error was: 'event'"].
Proof.
  apply (missing_event_reply say_ok
           [("type", PStr "url_verification"); ("challenge", PStr "3eZbrw1a")]).
  reflexivity.
Defined.

(** X6: an event dictionary without a ['text'] key is answered with the
    error reply that names ['text'], whatever else the event holds. *)
Theorem missing_text_reply
    (say : SayBehaviour) (body : PyVal) (event : list (string * PyVal)) :
  subscript body "event" = Ok (PDict event) ->
  dict_get "text" event = None ->
  messages (snd (run (handle_app_mention say body)))
  = ["Oops! I ran into an issue. Could you please rephrase your request? The error was: 'text'"].
Proof.
  intros Hev Htext.
  rewrite (on_extraction_failure say body (mkExc KeyError "'text'")).
  - reflexivity.
  - unfold text_without_mention, event_field. rewrite Hev. simpl. now rewrite Htext.
Qed.

Lemma missing_text_reply_witness :
  messages (snd (run (handle_app_mention say_ok
                        (PDict [("event", PDict [("type", PStr "app_mention");
                                                 ("user", PStr "U123")])]))))
  = ["Oops! I ran into an issue. Could you please rephrase your request? The error was: 'text'"].
Proof.
  apply (missing_text_reply say_ok
           (PDict [("event", PDict [("type", PStr "app_mention"); ("user", PStr "U123")])])
           [("type", PStr "app_mention"); ("user", PStr "U123")]);
    reflexivity.
Defined.

(** X7: a text that is not a [str] is answered with the [AttributeError]
    text that names its type: it has no [split]. *)
Theorem text_not_a_string_reply (say : SayBehaviour) (body text : PyVal) :
  event_field body "text" = Ok text ->
  (forall s, text <> PStr s) ->
  messages (snd (run (handle_app_mention say body)))
  = [apology ++ "'" ++ type_name text ++ "' object has no attribute 'split'"].
Proof.
  intros Htext Hns.
  rewrite (on_extraction_failure say body
             (mkExc AttributeError ("'" ++ type_name text ++ "' object has no attribute 'split'"))).
  - reflexivity.
  - unfold text_without_mention. rewrite Htext. simpl.
    destruct text; try reflexivity. now destruct (Hns s).
Qed.

Lemma text_not_a_string_reply_witness :
  messages (snd (run (handle_app_mention say_ok
                        (PDict [("event", PDict [("text", PNone); ("user", PStr "U123")])]))))
  = [apology ++ "'" ++ type_name PNone ++ "' object has no attribute 'split'"].
Proof.
  apply (text_not_a_string_reply say_ok
           (PDict [("event", PDict [("text", PNone); ("user", PStr "U123")])]) PNone).
  - reflexivity.
  - intros s. discriminate.
Defined.

(** X8: a body that is not a dictionary cannot be subscripted with
    ['event']: line 114 raises a [TypeError] and the only text said is
    the error reply with its text. *)
Theorem body_not_a_dict_reply (say : SayBehaviour) (body : PyVal) :
  (forall entries, body <> PDict entries) ->
  exists text,
    text_without_mention body = Raise (mkExc TypeError text)
    /\ messages (snd (run (handle_app_mention say body))) = [apology ++ text].
Proof.
  intros Hnd.
  assert (H : exists text, text_without_mention body = Raise (mkExc TypeError text)).
  { unfold text_without_mention, event_field.
    destruct body; simpl; eauto. now destruct (Hnd entries). }
  destruct H as [text Hq]. exists text. split; [exact Hq|].
  now rewrite (on_extraction_failure say body _ Hq).
Qed.

Lemma body_not_a_dict_reply_witness :
  exists text,
    text_without_mention (PList []) = Raise (mkExc TypeError text)
    /\ messages (snd (run (handle_app_mention say_ok (PList [])))) = [apology ++ text].
Proof.
  apply (body_not_a_dict_reply say_ok (PList [])).
  intros entries. discriminate.
Defined.

(** X9: with a text that extracts but no ['user'] key in the event,
    line 115 raises [KeyError]: the run is the ERROR record and the error
    reply naming ['user'].  The query is not logged and nothing is
    acknowledged, since both come after the read of the user. *)
Theorem missing_user_run
    (say : SayBehaviour) (body : PyVal) (event : list (string * PyVal)) (question : string) :
  text_without_mention body = Ok question ->
  subscript body "event" = Ok (PDict event) ->
  dict_get "user" event = None ->
  snd (run (handle_app_mention say body))
  = [ELog ERROR "An error occurred: 'user'";
     ESay "Oops! I ran into an issue. Could you please rephrase your request? The error was: 'user'"
          (say 0 (apology ++ "'user'"))].
Proof.
  intros Hq Hev Huser.
  rewrite handle_app_mention_run, process_run, Hq.
  unfold event_field. rewrite Hev. simpl. rewrite Huser. cbn beta iota.
  change (is_Exception _) with true. cbn iota.
  rewrite on_error_run. reflexivity.
Qed.

Lemma missing_user_run_witness :
  snd (run (handle_app_mention say_ok
              (PDict [("event", PDict [("text", PStr "<@U0SONAR> list the tables");
                                       ("bot_id", PStr "B042")])])))
  = [ELog ERROR "An error occurred: 'user'";
     ESay "Oops! I ran into an issue. Could you please rephrase your request? The error was: 'user'"
          (say_ok 0 (apology ++ "'user'"))].
Proof.
  apply (missing_user_run say_ok
           (PDict [("event", PDict [("text", PStr "<@U0SONAR> list the tables");
                                    ("bot_id", PStr "B042")])])
           [("text", PStr "<@U0SONAR> list the tables"); ("bot_id", PStr "B042")]
           "list the tables");
    reflexivity.
Defined.

(* ------------------------------------------------------------------ *)
(** * Further properties: when [say] fails *)
(* ------------------------------------------------------------------ *)

(** X10: when the acknowledgment's [say] raises an [Exception], the
    answer of line 130 is never said: the texts handed to [say] are the
    acknowledgment and then the error reply quoting that exception. *)
Theorem ack_failure_skips_answer
    (say : SayBehaviour) (body : PyVal) (question : string) (user_id : PyVal) (e : PyExc) :
  text_without_mention body = Ok question ->
  event_field body "user" = Ok user_id ->
  say 0 (ack_message user_id) = Some e ->
  is_Exception e = true ->
  messages (snd (run (handle_app_mention say body)))
  = ["Hey <@" ++ py_str user_id ++ ">, I'm on it! Let me check the data for you...";
     apology ++ exc_str e].
Proof.
  intros Hq Hu Hsay Hexc.
  rewrite handle_app_mention_run, process_run, Hq, Hu. cbv zeta.
  rewrite Hsay. cbn beta iota. rewrite Hexc, on_error_run. reflexivity.
Qed.

Lemma ack_failure_skips_answer_witness :
  messages (snd (run (handle_app_mention (say_fails_at 0 slack_api_error)
                        (mention_body "<@U0SONAR> list the tables" (PStr "U123")))))
  = ["Hey <@" ++ py_str (PStr "U123") ++ ">, I'm on it! Let me check the data for you...";
     apology ++ exc_str slack_api_error].
Proof.
  apply (ack_failure_skips_answer (say_fails_at 0 slack_api_error)
           (mention_body "<@U0SONAR> list the tables" (PStr "U123"))
           "list the tables" (PStr "U123") slack_api_error);
    reflexivity.
Defined.

(** X11: an exception that is not an [Exception] (a [KeyboardInterrupt]
    raised inside [say]) passes through [except Exception]: the handler
    raises it, logs no ERROR record and says no error reply. *)
Theorem non_Exception_passes_through (say : SayBehaviour) (body : PyVal) (e : PyExc) :
  fst (run (process say body)) = Raise e ->
  is_Exception e = false ->
  fst (run (handle_app_mention say body)) = Raise e
  /\ (forall text, ~ In (ELog ERROR text) (snd (run (handle_app_mention say body))))
  /\ (forall e' r, ~ In (ESay (error_message e') r) (snd (run (handle_app_mention say body)))).
Proof.
  intros Hraise Hne.
  rewrite handle_app_mention_run. revert Hraise. rewrite process_run.
  destruct (text_without_mention body) as [question|e1] eqn:Hq.
  - destruct (event_field body "user") as [user_id|e2] eqn:Hu.
    + cbv zeta.
      destruct (say 0 (ack_message user_id)) as [e3|];
        [|destruct (say 1 placeholder_reply) as [e4|]];
        simpl; intros Hraise; try discriminate;
        injection Hraise as ->; rewrite Hne;
        (split; [reflexivity|]); (split; [intros text H | intros e' r H]);
        unfold ack_message, error_message, placeholder_reply in H; simpl in H;
        repeat (destruct H as [H|H]; [discriminate H|]); exact H.
    + intros [= ->]. rewrite (event_field_raises_Exception _ _ _ Hu) in Hne. discriminate.
  - intros [= ->]. rewrite (text_without_mention_raises_Exception _ _ Hq) in Hne. discriminate.
Qed.

Lemma non_Exception_passes_through_witness :
  fst (run (handle_app_mention (say_fails_at 1 keyboard_interrupt)
              (mention_body "<@U0SONAR> list the tables" (PStr "U123"))))
  = Raise keyboard_interrupt
  /\ (forall text,
        ~ In (ELog ERROR text)
             (snd (run (handle_app_mention (say_fails_at 1 keyboard_interrupt)
                          (mention_body "<@U0SONAR> list the tables" (PStr "U123"))))))
  /\ (forall e' r,
        ~ In (ESay (error_message e') r)
             (snd (run (handle_app_mention (say_fails_at 1 keyboard_interrupt)
                          (mention_body "<@U0SONAR> list the tables" (PStr "U123")))))).
Proof.
  apply (non_Exception_passes_through (say_fails_at 1 keyboard_interrupt)
           (mention_body "<@U0SONAR> list the tables" (PStr "U123")) keyboard_interrupt);
    reflexivity.
Defined.

(** X12: every run ends with a call of [say], and the handler ends as
    that call does: it returns when the call returned and raises what the
    call raised.  No exception leaves the handler but one of [say]. *)
Theorem handler_ends_as_last_say (say : SayBehaviour) (body : PyVal) :
  exists tr text,
    snd (run (handle_app_mention say body))
    = (tr ++ [ESay text (say (say_count tr) text)])%list
    /\ fst (run (handle_app_mention say body))
       = match say (say_count tr) text with
         | None => Ok tt
         | Some e => Raise e
         end.
Proof.
  handler_cases say body;
    match goal with
    | |- context [(?tr ++ [ELog ERROR ?l; ESay ?t _])%list] =>
        exists (tr ++ [ELog ERROR l])%list, t
    | |- context [[?a; ?b; ?c; ESay ?t _]] => exists [a; b; c], t
    | |- context [[?a; ESay ?t _]] => exists [a], t
    end;
    cbn [fst snd app say_count filter is_say length];
    repeat match goal with
           | H : say _ _ = _ |- _ => rewrite H; clear H
           end;
    split; reflexivity.
Qed.

(* ------------------------------------------------------------------ *)
(** * Further properties: the shape of every run *)
(* ------------------------------------------------------------------ *)

(** Closes a goal about the position of one of the three texts in a
    list of at most three of them. *)
Ltac position_cases i H :=
  unfold ack_message, error_message, placeholder_reply in H;
  repeat (destruct i as [|i]; simpl in H;
          [try reflexivity; try discriminate H | try discriminate H]).

(** X13: in every run [say] is called at most three times; the
    acknowledgment is only ever the first text, the placeholder answer
    only the second, and the error reply only the last. *)
Theorem say_calls_are_ordered (say : SayBehaviour) (body : PyVal) :
  length (messages (snd (run (handle_app_mention say body)))) <= 3
  /\ (forall i u,
        nth_error (messages (snd (run (handle_app_mention say body)))) i
        = Some (ack_message u) -> i = 0)
  /\ (forall i,
        nth_error (messages (snd (run (handle_app_mention say body)))) i
        = Some placeholder_reply -> i = 1)
  /\ (forall i e,
        nth_error (messages (snd (run (handle_app_mention say body)))) i
        = Some (error_message e) ->
        S i = length (messages (snd (run (handle_app_mention say body))))).
Proof.
  pose proof (messages_shape say body) as Hshape. cbv zeta in Hshape.
  destruct Hshape as [[e0 ->] | [[u0 ->] | [(u0 & e0 & ->) | [[u0 ->] | (u0 & e0 & ->)]]]];
    (split; [simpl; lia|]);
    (split; [intros i u H | split; [intros i H | intros i e H]]);
    position_cases i H.
Qed.

(** X14: an ERROR record is logged exactly when the [try] block raised
    an [Exception]: never on the success path, and never for an exception
    that [except Exception] lets through. *)
Theorem error_logged_iff_caught (say : SayBehaviour) (body : PyVal) :
  (exists text, In (ELog ERROR text) (snd (run (handle_app_mention say body))))
  <-> (exists e, fst (run (process say body)) = Raise e /\ is_Exception e = true).
Proof.
  handler_cases say body; cbn [fst snd app];
    match goal with
    | |- context [ELog ERROR ("An error occurred: " ++ exc_str ?e)] =>
        (* the [except] branch ran *)
        split; intros _;
        [ exists e; split; [reflexivity|];
          first [ assumption
                | match goal with
                  | H : text_without_mention _ = Raise _ |- _ =>
                      exact (text_without_mention_raises_Exception _ _ H)
                  | H : event_field _ _ = Raise _ |- _ =>
                      exact (event_field_raises_Exception _ _ _ H)
                  end ]
        | exists ("An error occurred: " ++ exc_str e); cbn [In];
          repeat first [left; reflexivity | right] ]
    | |- _ =>
        (* it did not *)
        split;
        [ intros [text H]; cbn [In] in H;
          repeat (destruct H as [H|H]; [discriminate H|]); destruct H
        | intros (e' & Hraise & He');
          first [ discriminate Hraise | injection Hraise as <-; congruence ] ]
    end.
Qed.

(** X15: in every run the effect just before each call of [say] is a log
    record.  (The record holds the query, the response or the exception;
    it need not hold the text said.) *)
Theorem every_say_follows_a_log (say : SayBehaviour) (body : PyVal) :
  forall i text r,
    nth_error (snd (run (handle_app_mention say body))) i = Some (ESay text r) ->
    exists j level logged,
      i = S j
      /\ nth_error (snd (run (handle_app_mention say body))) j = Some (ELog level logged).
Proof.
  handler_cases say body; cbn [snd app]; intros i text r H;
    repeat (destruct i as [|i]; cbn [nth_error] in H;
            [ first [ discriminate H | do 3 eexists; split; reflexivity ]
            | try discriminate H ]).
Qed.

Lemma every_say_follows_a_log_witness :
  exists j level logged,
    3 = S j
    /\ nth_error (snd (run (handle_app_mention say_ok
                              (mention_body "<@U0SONAR> list the tables" (PStr "U123"))))) j
       = Some (ELog level logged).
Proof.
  apply (every_say_follows_a_log say_ok
           (mention_body "<@U0SONAR> list the tables" (PStr "U123"))
           3 placeholder_reply None).
  reflexivity.
Defined.

(** X16: the error reply and the ERROR record quote the same exception:
    whenever [say] is handed the apology followed by a text, the log
    holds "An error occurred: " followed by that text. *)
Theorem error_reply_matches_log (say : SayBehaviour) (body : PyVal) :
  forall quoted r,
    In (ESay (apology ++ quoted) r) (snd (run (handle_app_mention say body))) ->
    In (ELog ERROR ("An error occurred: " ++ quoted)) (snd (run (handle_app_mention say body))).
Proof.
  handler_cases say body; cbn [snd app]; intros quoted r H; cbn [In] in H |- *;
    repeat (destruct H as [H|H];
            [ first [ discriminate H
                    | exfalso; injection H as H _;
                      unfold ack_message, placeholder_reply, apology in H;
                      simpl in H; discriminate H
                    | injection H as H _;
                      unfold error_message, apology in H; simpl in H;
                      assert (exc_str e = quoted) as -> by congruence;
                      repeat first [left; reflexivity | right] ]
            | ]);
    destruct H.
Qed.

Lemma error_reply_matches_log_witness :
  In (ELog ERROR ("An error occurred: " ++ "list index out of range"))
     (snd (run (handle_app_mention say_ok bare_mention))).
Proof.
  apply (error_reply_matches_log say_ok bare_mention "list index out of range" None).
  right. left. reflexivity.
Defined.

(** X17: the question never reaches [say]: two events whose texts both
    extract and whose users agree get the same texts through the same
    [say], and the handler ends the same way, whatever the two questions
    are. *)
Theorem question_never_reaches_say
    (say : SayBehaviour) (body1 body2 : PyVal) (question1 question2 : string) :
  text_without_mention body1 = Ok question1 ->
  text_without_mention body2 = Ok question2 ->
  event_field body1 "user" = event_field body2 "user" ->
  messages (snd (run (handle_app_mention say body1)))
  = messages (snd (run (handle_app_mention say body2)))
  /\ fst (run (handle_app_mention say body1)) = fst (run (handle_app_mention say body2)).
Proof.
  intros Hq1 Hq2 Hu.
  rewrite !handle_app_mention_run, !process_run, Hq1, Hq2, Hu.
  destruct (event_field body2 "user") as [user_id|e]; [cbv zeta|].
  - destruct (say 0 (ack_message user_id)) as [e|];
      [|destruct (say 1 placeholder_reply) as [e|]];
      cbn beta iota; try destruct (is_Exception e);
      rewrite ?on_error_run;
      cbn [fst snd app messages say_count filter is_say length];
      split; reflexivity.
  - cbn beta iota. destruct (is_Exception e); rewrite ?on_error_run; split; reflexivity.
Qed.

Lemma question_never_reaches_say_witness :
  messages (snd (run (handle_app_mention say_ok
                        (mention_body "<@U0SONAR> list the tables" (PStr "U123")))))
  = messages (snd (run (handle_app_mention say_ok
                          (mention_body "<@U0SONAR> drop every table" (PStr "U123")))))
  /\ fst (run (handle_app_mention say_ok
                 (mention_body "<@U0SONAR> list the tables" (PStr "U123"))))
     = fst (run (handle_app_mention say_ok
                   (mention_body "<@U0SONAR> drop every table" (PStr "U123")))).
Proof.
  apply (question_never_reaches_say say_ok
           (mention_body "<@U0SONAR> list the tables" (PStr "U123"))
           (mention_body "<@U0SONAR> drop every table" (PStr "U123"))
           "list the tables" "drop every table");
    reflexivity.
Defined.

Lemma append_assoc (a b c : string) : (a ++ b) ++ c = a ++ (b ++ c).
Proof. induction a as [|x a IH]; simpl; [reflexivity | now rewrite IH]. Qed.

(** X18: on the success path the run is four effects in this order: the
    INFO record of the query, with the user and the question verbatim;
    the acknowledgment; the INFO record of the response dictionary, with
    the question as [repr] writes it; the placeholder answer. *)
Theorem success_path_trace (say : SayBehaviour) (body : PyVal) :
  fst (run (process say body)) = Ok tt ->
  exists question user_id,
    text_without_mention body = Ok question
    /\ event_field body "user" = Ok user_id
    /\ snd (run (handle_app_mention say body))
       = [ELog INFO ("Received query from user " ++ py_str user_id ++ ": " ++ question);
          ESay (ack_message user_id) None;
          ELog INFO ("Agent's response: {'input': " ++ str_repr question
                     ++ ", 'output': 'Hello World!'}");
          ESay placeholder_reply None].
Proof.
  rewrite handle_app_mention_run, process_run.
  destruct (text_without_mention body) as [question|e]; [|discriminate].
  destruct (event_field body "user") as [user_id|e]; [|discriminate].
  cbv zeta.
  destruct (say 0 (ack_message user_id)); [discriminate|].
  destruct (say 1 placeholder_reply); [discriminate|].
  intros _. exists question, user_id. repeat split.
  cbn [snd]. do 2 f_equal. f_equal. f_equal.
  unfold py_str, py_repr. cbn [map join].
  change (str_repr "input") with "'input'".
  change (str_repr "output") with "'output'".
  change (str_repr "Hello World!") with "'Hello World!'".
  simpl. now rewrite !append_assoc.
Qed.

Lemma success_path_trace_witness :
  exists question user_id,
    text_without_mention (mention_body "<@U0SONAR> who's on call" (PStr "U123")) = Ok question
    /\ event_field (mention_body "<@U0SONAR> who's on call" (PStr "U123")) "user" = Ok user_id
    /\ snd (run (handle_app_mention say_ok
                   (mention_body "<@U0SONAR> who's on call" (PStr "U123"))))
       = [ELog INFO ("Received query from user " ++ py_str user_id ++ ": " ++ question);
          ESay (ack_message user_id) None;
          ELog INFO ("Agent's response: {'input': " ++ str_repr question
                     ++ ", 'output': 'Hello World!'}");
          ESay placeholder_reply None].
Proof.
  apply (success_path_trace say_ok (mention_body "<@U0SONAR> who's on call" (PStr "U123"))).
  reflexivity.
Defined.

(** X19: when the handler returns normally, the last text handed to
    [say] was delivered: a run that ends without an exception has
    answered the user. *)
Theorem normal_return_means_answered (say : SayBehaviour) (body : PyVal) :
  fst (run (handle_app_mention say body)) = Ok tt ->
  exists text,
    final_message (snd (run (handle_app_mention say body))) = Some text
    /\ In text (delivered (snd (run (handle_app_mention say body)))).
Proof.
  handler_cases say body; cbn [fst snd app say_count filter is_say length];
    try discriminate;
    try (destruct (say _ (error_message _)); [discriminate|]);
    intros _; eexists; (split; [reflexivity|]);
    cbn [delivered]; auto using in_eq, in_cons.
Qed.

Lemma normal_return_means_answered_witness :
  exists text,
    final_message (snd (run (handle_app_mention (say_fails_at 0 slack_api_error)
                               (mention_body "<@U0SONAR> list the tables" (PStr "U123")))))
    = Some text
    /\ In text (delivered (snd (run (handle_app_mention (say_fails_at 0 slack_api_error)
                                      (mention_body "<@U0SONAR> list the tables"
                                         (PStr "U123")))))).
Proof.
  apply (normal_return_means_answered (say_fails_at 0 slack_api_error)
           (mention_body "<@U0SONAR> list the tables" (PStr "U123"))).
  reflexivity.
Defined.
